(** * Browser-driven verification scripts (web-katrain, [verification/])

    The six Playwright scripts of the repository, embedded as programs of a
    small exception-and-trace monad.  Playwright itself is not part of the
    repository: the outcome of every call into it (returning or raising, the
    bounding box it reports, the image it renders) is supplied by an
    environment that may depend on everything that happened before. *)

From Stdlib Require Import ZArith List String Ascii Bool Lia.
Import ListNotations.

Local Open Scope Z_scope.
Local Open Scope string_scope.
Local Open Scope list_scope.

(** ** Values exchanged with Playwright *)

(** A Python exception of class [Exception], carried by its message (what
    an f-string prints for it).  The errors Playwright raises, timeouts
    included, are of that class, so every [except Exception] clause catches
    them. *)
Definition exn := string.

(** Bytes of a PNG image. *)
Definition image := list Byte.byte.

(** The dict returned by [Locator.bounding_box()]; pixel units, taken as
    integers.  No statement below depends on their arithmetic. *)
Record box := Box { x : Z; y : Z; width : Z; height : Z }.

(** [page.locator(sel)] and [page.get_by_text(text)] only build a locator;
    nothing is sent to the browser until an action is called on it. *)
Inductive locator :=
| CssLocator (selector : string)
| TextLocator (text : string).

(** Handles.  One script run owns one of each. *)
Inductive playwright := Playwright.
Inductive browser_type := Chromium.
Inductive browser := Browser.
Inductive context := Context.
Inductive page := Page.
Inductive mouse := Mouse.

(** The calls into Playwright made by the scripts, with their arguments.
    Optional keyword arguments left out by the caller are [None]. *)
Inductive call :=
| SyncPlaywrightEnter
| SyncPlaywrightExit
| Launch (headless : bool)
| NewContext (viewport_width viewport_height : Z)
| NewPage
| Goto (url : string) (timeout : option Z)
| WaitForSelector (selector : string) (state : option string) (timeout : option Z)
| Click (selector : string)
| LocatorClick (l : locator)
| BoundingBox (l : locator)
| MouseClick (px py : Z)
| SelectOption (selector value : string)
| Fill (selector value : string)
| Screenshot (path : string)
| BrowserClose.

Inductive outcome :=
| Returned
| ReturnedBox (b : option box)
| ReturnedImage (img : image)
| Raised (e : exn).

(** What a run does, in order.  Durations are in milliseconds. *)
Inductive event :=
| ECall (c : call) (o : outcome)
| ESleep (ms : Z)
| EPrint (msg : string).

(** The world outside the script: given the history so far, whether a call
    raises, what a bounding box query answers and what the page looks like. *)
Record env := Env {
  raises : list event -> call -> option exn;
  box_of : list event -> locator -> option box;
  rendered : list event -> image
}.

(** ** The monad of scripts *)

Inductive res (A : Type) :=
| Ok (a : A)
| Raise (e : exn).
Arguments Ok {A} a.
Arguments Raise {A} e.

(** A computation reads the environment and the history and gives its result
    with the events it added. *)
Definition M (A : Type) := env -> list event -> res A * list event.

Definition ret {A} (a : A) : M A := fun _ _ => (Ok a, []).

Definition bind {A B} (m : M A) (f : A -> M B) : M B :=
  fun w h =>
    match m w h with
    | (Ok a, t) => let (r, t') := f a w (h ++ t) in (r, t ++ t')
    | (Raise e, t) => (Raise e, t)
    end.

Declare Scope script_scope.
Delimit Scope script_scope with script.
Notation "v <- m ;; k" := (bind m (fun v => k))
  (at level 61, m at next level, right associativity) : script_scope.
Notation "m ;; k" := (bind m (fun _ => k))
  (at level 61, right associativity) : script_scope.
Local Open Scope script_scope.

(** [try: body  except Exception as e: handler e] *)
Definition try_except {A} (body : M A) (handler : exn -> M A) : M A :=
  fun w h =>
    match body w h with
    | (Ok a, t) => (Ok a, t)
    | (Raise e, t) => let (r, t') := handler e w (h ++ t) in (r, t ++ t')
    end.

(** [try: body  finally: fin] : [fin] always runs; an exception of [fin]
    replaces the result of [body]. *)
Definition try_finally {A} (body : M A) (fin : M unit) : M A :=
  fun w h =>
    let (r, t) := body w h in
    match fin w (h ++ t) with
    | (Ok _, t') => (r, t ++ t')
    | (Raise e', t') => (Raise e', t ++ t')
    end.

(** [try: body  except Exception as e: handler e  finally: fin] *)
Definition try_except_finally {A} (body : M A) (handler : exn -> M A)
    (fin : M unit) : M A :=
  try_finally (try_except body handler) fin.

(** A Playwright call whose result the script does not use. *)
Definition invoke (c : call) : M unit :=
  fun w h =>
    match raises w h c with
    | Some e => (Raise e, [ECall c (Raised e)])
    | None => (Ok tt, [ECall c Returned])
    end.

Definition sleep (ms : Z) : M unit := fun _ _ => (Ok tt, [ESleep ms]).
Definition print (msg : string) : M unit := fun _ _ => (Ok tt, [EPrint msg]).

(** ** The Playwright API as the scripts use it *)

(** [with sync_playwright() as p: body p] : [__exit__] runs on every way out
    of the block and does not swallow the exception. *)
Definition with_sync_playwright {A} (body : playwright -> M A) : M A :=
  invoke SyncPlaywrightEnter ;;
  try_finally (body Playwright) (invoke SyncPlaywrightExit).

Definition chromium (p : playwright) : browser_type := Chromium.

Definition launch (bt : browser_type) (headless : bool) : M browser :=
  invoke (Launch headless) ;; ret Browser.

Definition new_context (b : browser) (viewport_width viewport_height : Z)
    : M context :=
  invoke (NewContext viewport_width viewport_height) ;; ret Context.

Definition new_page (b : browser) : M page := invoke NewPage ;; ret Page.
Definition context_new_page (c : context) : M page := invoke NewPage ;; ret Page.

Definition close (b : browser) : M unit := invoke BrowserClose.

Definition goto (pg : page) (url : string) (timeout : option Z) : M unit :=
  invoke (Goto url timeout).

Definition wait_for_selector (pg : page) (selector : string)
    (state : option string) (timeout : option Z) : M unit :=
  invoke (WaitForSelector selector state timeout).

Definition click (pg : page) (selector : string) : M unit :=
  invoke (Click selector).

Definition select_option (pg : page) (selector value : string) : M unit :=
  invoke (SelectOption selector value).

Definition fill (pg : page) (selector value : string) : M unit :=
  invoke (Fill selector value).

Definition page_mouse (pg : page) : mouse := Mouse.

Definition mouse_click (m : mouse) (px py : Z) : M unit :=
  invoke (MouseClick px py).

Definition page_locator (pg : page) (selector : string) : locator :=
  CssLocator selector.

Definition get_by_text (pg : page) (text : string) : locator :=
  TextLocator text.

Definition locator_click (l : locator) : M unit := invoke (LocatorClick l).

Definition bounding_box (l : locator) : M (option box) :=
  fun w h =>
    match raises w h (BoundingBox l) with
    | Some e => (Raise e, [ECall (BoundingBox l) (Raised e)])
    | None => (Ok (box_of w h l), [ECall (BoundingBox l) (ReturnedBox (box_of w h l))])
    end.

(** [page.screenshot(path=...)]: on return the rendered page has been
    written to [path]. *)
Definition screenshot (pg : page) (path : string) : M unit :=
  fun w h =>
    match raises w h (Screenshot path) with
    | Some e => (Raise e, [ECall (Screenshot path) (Raised e)])
    | None => (Ok tt, [ECall (Screenshot path) (ReturnedImage (rendered w h))])
    end.

(** The double quote character, for selectors that contain one. *)
Definition dq : string := String (ascii_of_nat 34) EmptyString.

Definition localhost : string := "http://localhost:5173".

(** ** verify_mistakes.py *)

Module verify_mistakes.

Definition run : M unit :=
  with_sync_playwright (fun p =>
    browser <- launch (chromium p) true ;;
    page <- new_page browser ;;
    goto page localhost None ;;
    click page "button[title='Teach Mode']" ;;
    sleep 1000 ;;
    mouse_click (page_mouse page) 400 400 ;;
    sleep 500 ;;
    mouse_click (page_mouse page) 450 400 ;;
    sleep 500 ;;
    mouse_click (page_mouse page) 400 450 ;;
    sleep 500 ;;
    mouse_click (page_mouse page) 450 450 ;;
    sleep 500 ;;
    click page "button[title='Settings']" ;;
    sleep 1000 ;;
    screenshot page "verification/settings_modal.png" ;;
    click page "button:has-text('Done')" ;;
    click page "button[title='Previous Mistake (Shift+N)']" ;;
    sleep 1000 ;;
    screenshot page "verification/mistakes_ui.png" ;;
    close browser).

Definition main : M unit := run.

End verify_mistakes.

(** ** verify_mistakes_v2.py *)

Module verify_mistakes_v2.

Definition run : M unit :=
  with_sync_playwright (fun p =>
    browser <- launch (chromium p) true ;;
    page <- new_page browser ;;
    goto page localhost None ;;
    wait_for_selector page "div.text-2xl" (Some "visible") None ;;
    click page "button[title='Settings']" ;;
    sleep 1000 ;;
    screenshot page "verification/settings_modal.png" ;;
    click page "button:has-text('Done')" ;;
    screenshot page "verification/main_ui.png" ;;
    close browser).

Definition main : M unit := run.

End verify_mistakes_v2.

(** ** verify_mistakes_v3.py *)

Module verify_mistakes_v3.

Definition try_body (page : page) : M unit :=
  goto page localhost (Some 60000) ;;
  wait_for_selector page "body" (Some "visible") None ;;
  wait_for_selector page "text=Ka" (Some "visible") None ;;
  click page "button[title='Settings']" ;;
  sleep 1000 ;;
  screenshot page "verification/settings_modal.png" ;;
  click page "button:has-text('Done')" ;;
  screenshot page "verification/main_ui.png".

Definition on_error (page : page) (e : exn) : M unit :=
  print ("Error: " ++ e)%string ;;
  screenshot page "verification/error.png".

Definition run : M unit :=
  with_sync_playwright (fun p =>
    browser <- launch (chromium p) true ;;
    page <- new_page browser ;;
    try_except_finally (try_body page) (on_error page) (close browser)).

Definition main : M unit := run.

End verify_mistakes_v3.

(** ** verify_mistakes_v4.py *)

Module verify_mistakes_v4.

Definition try_body (page : page) : M unit :=
  goto page localhost (Some 60000) ;;
  wait_for_selector page "#root" (Some "visible") None ;;
  sleep 2000 ;;
  screenshot page "verification/early_render.png".

Definition on_error (page : page) (e : exn) : M unit :=
  print ("Error: " ++ e)%string ;;
  screenshot page "verification/error.png".

Definition run : M unit :=
  with_sync_playwright (fun p =>
    browser <- launch (chromium p) true ;;
    context <- new_context browser 1280 720 ;;
    page <- context_new_page context ;;
    try_except_finally (try_body page) (on_error page) (close browser)).

Definition main : M unit := run.

End verify_mistakes_v4.

(** ** verify_nav.py *)

Module verify_nav.

Definition board_selector : string := ".relative.bg-\[\#DCB35C\]".

Definition try_body (page : page) : M unit :=
  goto page localhost None ;;
  wait_for_selector page board_selector None None ;;
  let board := page_locator page board_selector in
  board_box <- bounding_box board ;;
  match board_box with
  | Some b =>
      mouse_click (page_mouse page) (x b + 100) (y b + 100) ;;
      sleep 500 ;;
      mouse_click (page_mouse page) (x b + 200) (y b + 100) ;;
      sleep 500 ;;
      mouse_click (page_mouse page) (x b + 100) (y b + 200) ;;
      sleep 500
  | None => ret tt
  end ;;
  locator_click (get_by_text page "Prev") ;;
  sleep 500 ;;
  screenshot page "verification/verification.png" ;;
  print "Screenshot taken".

Definition on_error (e : exn) : M unit :=
  print ("Error: " ++ e)%string.

Definition verify_navigation : M unit :=
  with_sync_playwright (fun p =>
    browser <- launch (chromium p) true ;;
    page <- new_page browser ;;
    sleep 3000 ;;
    try_except_finally (try_body page) on_error (close browser)).

Definition main : M unit := verify_navigation.

End verify_nav.

(** ** verify_settings.py *)

Module verify_settings.

Definition settings_button : string :=
  ("button[title=" ++ dq ++ "Settings" ++ dq ++ "]")%string.

Definition range_input : string :=
  ("input[type=" ++ dq ++ "range" ++ dq ++ "]")%string.

Definition try_body (page : page) : M unit :=
  goto page localhost None ;;
  wait_for_selector page "text=Ka" None (Some 10000) ;;
  locator_click (page_locator page settings_button) ;;
  wait_for_selector page "text=Board Theme" None None ;;
  select_option page "select" "dark" ;;
  fill page range_input "5" ;;
  click page "text=Done" ;;
  mouse_click (page_mouse page) 500 300 ;;
  sleep 500 ;;
  mouse_click (page_mouse page) 550 300 ;;
  sleep 500 ;;
  screenshot page "/home/jules/verification/settings_verification.png" ;;
  print "Screenshot taken".

Definition on_error (e : exn) : M unit :=
  print ("Error in verify_settings: " ++ e)%string.

Definition verify_settings (page : page) : M unit :=
  try_except (try_body page) on_error.

Definition main_on_error (e : exn) : M unit :=
  print ("Error: " ++ e)%string.

Definition main : M unit :=
  with_sync_playwright (fun p =>
    browser <- launch (chromium p) true ;;
    page <- new_page browser ;;
    try_except_finally (verify_settings page) main_on_error (close browser)).

End verify_settings.

(** ** Running a script as a process *)

(** The six [if __name__ == "__main__":] blocks. *)
Definition entry_points : list (M unit) :=
  [ verify_mistakes.main; verify_mistakes_v2.main; verify_mistakes_v3.main;
    verify_mistakes_v4.main; verify_nav.main; verify_settings.main ].

Definition result_of {A} (m : M A) (w : env) : res A := fst (m w []).
Definition trace_of {A} (m : M A) (w : env) : list event := snd (m w []).

(** Exit status of the interpreter: 0 when the main block returns, 1 when an
    exception leaves it. *)
Definition exit_status {A} (r : res A) : Z :=
  match r with
  | Ok _ => 0
  | Raise _ => 1
  end.

(** Calls that set the session up or tear it down, as opposed to the steps
    of the scenario. *)
Definition lifecycle (c : call) : bool :=
  match c with
  | SyncPlaywrightEnter | SyncPlaywrightExit | Launch _ | NewContext _ _
  | NewPage | BrowserClose => true
  | _ => false
  end.

(** The session itself works: start-up and teardown calls return. *)
Definition session_ok (w : env) : Prop :=
  forall h c, lifecycle c = true -> raises w h c = None.

(** The events of a session start-up that went well. *)
Definition started : list event :=
  [ ECall SyncPlaywrightEnter Returned;
    ECall (Launch true) Returned;
    ECall NewPage Returned ].

Definition started_v4 : list event :=
  [ ECall SyncPlaywrightEnter Returned;
    ECall (Launch true) Returned;
    ECall (NewContext 1280 720) Returned;
    ECall NewPage Returned ].


(** The events of a teardown that went well. *)
Definition torn_down : list event :=
  [ ECall BrowserClose Returned; ECall SyncPlaywrightExit Returned ].

(** *** Observations on traces *)

Definition is_close (ev : event) : bool :=
  match ev with
  | ECall BrowserClose _ => true
  | _ => false
  end.

(** Number of times [browser.close()] was called. *)
Definition closes (t : list event) : nat := List.length (filter is_close t).

(** Paths of the screenshot calls, whatever their outcome. *)
Fixpoint captures (t : list event) : list string :=
  match t with
  | [] => []
  | ECall (Screenshot p) _ :: t' => p :: captures t'
  | _ :: t' => captures t'
  end.

(** Paths of the screenshots that were written. *)
Fixpoint written (t : list event) : list string :=
  match t with
  | [] => []
  | ECall (Screenshot p) (ReturnedImage _) :: t' => p :: written t'
  | _ :: t' => written t'
  end.

(** An event without its outcome. *)
Inductive action :=
| ACall (c : call)
| ASleep (ms : Z)
| APrint (msg : string).

Definition action_of (ev : event) : action :=
  match ev with
  | ECall c _ => ACall c
  | ESleep ms => ASleep ms
  | EPrint msg => APrint msg
  end.

Definition actions (t : list event) : list action := map action_of t.

(** *** Some environments *)

(** Nothing raises; no bounding box; blank image. *)
Definition quiet : env :=
  Env (fun _ _ => None) (fun _ _ => None) (fun _ => []).

(** The calls selected by [bad] raise [msg], all others return. *)
Definition failing (bad : call -> bool) (msg : exn) : env :=
  Env (fun _ c => if bad c then Some msg else None)
      (fun _ _ => None) (fun _ => []).

Definition is_goto (c : call) : bool :=
  match c with
  | Goto _ _ => true
  | _ => false
  end.


Definition is_screenshot (c : call) : bool :=
  match c with
  | Screenshot _ => true
  | _ => false
  end.

(** The application is not being served: navigation fails. *)
Definition refused : env := failing is_goto "net::ERR_CONNECTION_REFUSED".

(** The application is not being served and the disk cannot be written. *)
Definition refused_readonly : env :=
  Env (fun _ c =>
         if is_goto c then Some "net::ERR_CONNECTION_REFUSED"
         else if is_screenshot c then Some "EROFS: read-only file system"
         else None)
      (fun _ _ => None) (fun _ => []).




(** The calls of a trace, in order. *)
Fixpoint calls (t : list event) : list call :=
  match t with
  | [] => []
  | ECall c _ :: t' => c :: calls t'
  | _ :: t' => calls t'
  end.

(** *** Step kinds of the specification *)

(** The kinds of step the specification distinguishes, with the bound of a
    wait. *)
Inductive step_kind :=
| Navigate
| Wait (timeout : option Z)
| ClickElement
| ClickPoint
| SelectValue
| FillText
| Capture
| Other.

Definition kind_of (c : call) : step_kind :=
  match c with
  | Goto _ _ => Navigate
  | WaitForSelector _ _ timeout => Wait timeout
  | Click _ | LocatorClick _ => ClickElement
  | MouseClick _ _ => ClickPoint
  | SelectOption _ _ => SelectValue
  | Fill _ _ => FillText
  | Screenshot _ => Capture
  | BoundingBox _ | SyncPlaywrightEnter | SyncPlaywrightExit | Launch _
  | NewContext _ _ | NewPage | BrowserClose => Other
  end.

(** The settings scenario as the specification words it: navigate, wait up
    to 10000 ms, click, wait up to 5000 ms, select, click, capture. *)
Definition settings_steps_spec : list step_kind :=
  [ Navigate; Wait (Some 10000); ClickElement; Wait (Some 5000);
    SelectValue; ClickElement; Capture ].

(** The settings scenario as [verify_settings] runs it when every step
    returns. *)
Definition settings_actions : list action :=
  [ ACall (Goto "http://localhost:5173" None);
    ACall (WaitForSelector "text=Ka" None (Some 10000));
    ACall (LocatorClick (CssLocator verify_settings.settings_button));
    ACall (WaitForSelector "text=Board Theme" None None);
    ACall (SelectOption "select" "dark");
    ACall (Fill verify_settings.range_input "5");
    ACall (Click "text=Done");
    ACall (MouseClick 500 300);
    ASleep 500;
    ACall (MouseClick 550 300);
    ASleep 500;
    ACall (Screenshot "/home/jules/verification/settings_verification.png");
    APrint "Screenshot taken" ].

(** The board was waited for and found. *)
Definition board_found : list event :=
  [ ECall (Goto localhost None) Returned;
    ECall (WaitForSelector verify_nav.board_selector None None) Returned ].

(** [board.bounding_box()] returned [None]. *)
Definition no_box : event :=
  ECall (BoundingBox (CssLocator verify_nav.board_selector)) (ReturnedBox None).

(** *** Paths *)

(** Split a path at its last slash. *)
Fixpoint split_last_slash (s : string) : option (string * string) :=
  match s with
  | EmptyString => None
  | String c s' =>
      match split_last_slash s' with
      | Some (d, f) => Some (String c d, f)
      | None => if Ascii.eqb c "/" then Some (EmptyString, s') else None
      end
  end.

(** The directory part of a path: what precedes the last slash. *)
Definition dirname (s : string) : string :=
  match split_last_slash s with
  | Some (d, _) => d
  | None => EmptyString
  end.

Definition is_absolute (s : string) : bool :=
  match s with
  | String c _ => Ascii.eqb c "/"
  | EmptyString => false
  end.

(** The file a path names for a process whose working directory is [cwd]. *)
Definition resolve (cwd path : string) : string :=
  if is_absolute path then path else (cwd ++ "/" ++ path)%string.

Definition output_dir (cwd path : string) : string := dirname (resolve cwd path).

(** The screenshot paths written out in the five scripts that use a relative
    path. *)
Definition relative_artifacts : list string :=
  [ "verification/settings_modal.png"; "verification/mistakes_ui.png";
    "verification/main_ui.png"; "verification/error.png";
    "verification/early_render.png"; "verification/verification.png" ].

(** The screenshot path written out in [verify_settings.py]. *)
Definition absolute_artifacts : list string :=
  [ "/home/jules/verification/settings_verification.png" ].

(** A property of the paths of the screenshot calls, as a property of
    events. *)
Definition captures_in (Q : string -> Prop) (ev : event) : Prop :=
  match ev with
  | ECall (Screenshot p) _ => Q p
  | _ => True
  end.

(** Every event a computation can add satisfies [P], in every environment
    and from every history. *)
Definition emits {A} (P : event -> Prop) (m : M A) : Prop :=
  forall w h, Forall P (snd (m w h)).

(** *** The file store *)

(** The files of the output directories: path and content, in no particular
    order. *)
Definition file_store := list (string * image).

(** Modelled from the spec: the effect on the file system of a capture,
    which happens inside Playwright's [page.screenshot(path=...)] and not in
    the repository.  The specification words it as: "writes it to the given
    path, overwriting any existing file at that path". *)
Definition write_file (path : string) (img : image) (fs : file_store)
    : file_store :=
  (path, img) :: filter (fun f => negb (String.eqb (fst f) path)) fs.

(** The files found at a path. *)
Definition files_at (path : string) (fs : file_store) : file_store :=
  filter (fun f => String.eqb (fst f) path) fs.

(** The file store after the screenshots of a run. *)
Fixpoint store_after (t : list event) (fs : file_store) : file_store :=
  match t with
  | [] => fs
  | ECall (Screenshot p) (ReturnedImage img) :: t' =>
      store_after t' (write_file p img fs)
  | _ :: t' => store_after t' fs
  end.

(** The history of [verify_mistakes_v2.py] when it captures the settings
    modal, every step having returned. *)
Definition modal_shown_v2 : list event :=
  started ++
  [ ECall (Goto localhost None) Returned;
    ECall (WaitForSelector "div.text-2xl" (Some "visible") None) Returned;
    ECall (Click "button[title='Settings']") Returned;
    ESleep 1000 ].

(** A screenshot path of the relative kind: one of the literals, under
    [verification/] of the working directory. *)
Definition relative_capture (cwd p : string) : Prop :=
  In p relative_artifacts /\ is_absolute p = false /\
  dirname p = "verification" /\
  output_dir cwd p = (cwd ++ "/verification")%string.

(** A screenshot path of the absolute kind. *)
Definition absolute_capture (cwd p : string) : Prop :=
  In p absolute_artifacts /\ is_absolute p = true /\
  output_dir cwd p = "/home/jules/verification".

(** *** Further observations on traces *)

(** Calls that acquire the session. *)
Definition startup (c : call) : bool :=
  match c with
  | SyncPlaywrightEnter | Launch _ | NewContext _ _ | NewPage => true
  | _ => false
  end.

(** The session can be acquired: the start-up calls return. *)
Definition startup_ok (w : env) : Prop :=
  forall h c, startup c = true -> raises w h c = None.

Definition is_new_page (c : call) : bool :=
  match c with
  | NewPage => true
  | _ => false
  end.

(** The browser starts but cannot open a page. *)
Definition no_page : env := failing is_new_page "Target closed".

(** Every call returns and the board is reported at [b]. *)
Definition board_at (b : box) : env :=
  Env (fun _ _ => None) (fun _ _ => Some b) (fun _ => []).

Definition is_exit (ev : event) : bool :=
  match ev with
  | ECall SyncPlaywrightExit _ => true
  | _ => false
  end.

(** Number of times the [with] block was left. *)
Definition exits (t : list event) : nat := List.length (filter is_exit t).

(** The calls that raised, in order. *)
Fixpoint raised_calls (t : list event) : list call :=
  match t with
  | [] => []
  | ECall c (Raised _) :: t' => c :: raised_calls t'
  | _ :: t' => raised_calls t'
  end.

(** The page is used only while the session is open: between
    [new_page] returning and the call of [browser.close()]. *)
Fixpoint within_session (open : bool) (t : list event) : bool :=
  match t with
  | [] => true
  | ECall NewPage Returned :: t' => within_session true t'
  | ECall BrowserClose _ :: t' => within_session false t'
  | ECall c _ :: t' =>
      (if lifecycle c then true else open) && within_session open t'
  | _ :: t' => within_session open t'
  end.

(** Calls that act on elements of the page or query them. *)
Definition interacts (c : call) : bool :=
  match c with
  | Click _ | LocatorClick _ | MouseClick _ _ | SelectOption _ _ | Fill _ _
  | BoundingBox _ => true
  | _ => false
  end.

(** No interaction with the page before a readiness wait has returned. *)
Fixpoint waits_before_acting (ready : bool) (t : list event) : bool :=
  match t with
  | [] => true
  | ECall (WaitForSelector _ _ _) Returned :: t' => waits_before_acting true t'
  | ECall c _ :: t' =>
      (if interacts c then ready else true) && waits_before_acting ready t'
  | _ :: t' => waits_before_acting ready t'
  end.

Definition is_raised (o : outcome) : bool :=
  match o with
  | Raised _ => true
  | _ => false
  end.

Definition is_error_capture (c : call) : bool :=
  match c with
  | Screenshot p => String.eqb p "verification/error.png"
  | _ => false
  end.

(** Once a step of the scenario has raised, the run goes on with nothing but
    prints, the capture of [verification/error.png] and lifecycle calls: no
    further step, no retry, no pause. *)
Fixpoint stops_at_failure (failed : bool) (t : list event) : bool :=
  match t with
  | [] => true
  | ECall c o :: t' =>
      if lifecycle c then stops_at_failure failed t'
      else if failed then is_error_capture c && stops_at_failure true t'
      else stops_at_failure (is_raised o) t'
  | ESleep _ :: t' => negb failed && stops_at_failure failed t'
  | EPrint _ :: t' => stops_at_failure failed t'
  end.

(** Sum of the pauses of a run, in milliseconds. *)
Fixpoint total_sleep (t : list event) : Z :=
  match t with
  | [] => 0
  | ESleep ms :: t' => ms + total_sleep t'
  | _ :: t' => total_sleep t'
  end.

(** ** [verify_settings.py] with the classes of exceptions

    What [except Exception] lets through depends on the class of what is
    raised, and the handlers print.  Here an exception carries its class,
    and every effect of the script, a print or a pause as well as a call
    into Playwright, may raise. *)

Module classes.

(** [except Exception] catches [Exception] and its subclasses (the errors of
    Playwright, [OSError], ...), not the other subclasses of [BaseException]
    ([KeyboardInterrupt], [SystemExit], [GeneratorExit]). *)
Inductive exn_class :=
| IsException
| BaseOnly.

Record pyexn := PyExn { class_of : exn_class; message : string }.

(** What the script does to the outside world. *)
Inductive effect :=
| Call (c : call)
| Sleep (ms : Z)
| Print (msg : string).

Inductive outcome :=
| Done
| Raised (e : pyexn).

Inductive event :=
| Did (f : effect) (o : outcome).

(** Given the history, whether the next effect raises. *)
Definition env := list event -> effect -> option pyexn.

Inductive res (A : Type) :=
| Ok (a : A)
| Raise (e : pyexn).
Arguments Ok {A} a.
Arguments Raise {A} e.

Definition M (A : Type) := env -> list event -> res A * list event.

Definition ret {A} (a : A) : M A := fun _ _ => (Ok a, []).

Definition bind {A B} (m : M A) (f : A -> M B) : M B :=
  fun w h =>
    match m w h with
    | (Ok a, t) => let (r, t') := f a w (h ++ t) in (r, t ++ t')
    | (Raise e, t) => (Raise e, t)
    end.

Declare Scope classes_scope.
Notation "v <- m ;; k" := (bind m (fun v => k))
  (at level 61, m at next level, right associativity) : classes_scope.
Notation "m ;; k" := (bind m (fun _ => k))
  (at level 61, right associativity) : classes_scope.
Local Open Scope classes_scope.

(** [try: body  except Exception as e: handler e] : an exception outside
    class [Exception] passes through. *)
Definition try_except {A} (body : M A) (handler : pyexn -> M A) : M A :=
  fun w h =>
    match body w h with
    | (Ok a, t) => (Ok a, t)
    | (Raise e, t) =>
        match class_of e with
        | IsException => let (r, t') := handler e w (h ++ t) in (r, t ++ t')
        | BaseOnly => (Raise e, t)
        end
    end.

(** [try: body  finally: fin] *)
Definition try_finally {A} (body : M A) (fin : M unit) : M A :=
  fun w h =>
    let (r, t) := body w h in
    match fin w (h ++ t) with
    | (Ok _, t') => (r, t ++ t')
    | (Raise e', t') => (Raise e', t ++ t')
    end.

Definition perform (f : effect) : M unit :=
  fun w h =>
    match w h f with
    | Some e => (Raise e, [Did f (Raised e)])
    | None => (Ok tt, [Did f Done])
    end.

Definition sleep (ms : Z) : M unit := perform (Sleep ms).
Definition print (msg : string) : M unit := perform (Print msg).

Definition with_sync_playwright {A} (body : playwright -> M A) : M A :=
  perform (Call SyncPlaywrightEnter) ;;
  try_finally (body Playwright) (perform (Call SyncPlaywrightExit)).

Definition launch (bt : browser_type) (headless : bool) : M browser :=
  perform (Call (Launch headless)) ;; ret Browser.

Definition new_page (b : browser) : M page :=
  perform (Call NewPage) ;; ret Page.

Definition close (b : browser) : M unit := perform (Call BrowserClose).

Definition goto (pg : page) (url : string) (timeout : option Z) : M unit :=
  perform (Call (Goto url timeout)).

Definition wait_for_selector (pg : page) (selector : string)
    (state : option string) (timeout : option Z) : M unit :=
  perform (Call (WaitForSelector selector state timeout)).

Definition click (pg : page) (selector : string) : M unit :=
  perform (Call (Click selector)).

Definition select_option (pg : page) (selector value : string) : M unit :=
  perform (Call (SelectOption selector value)).

Definition fill (pg : page) (selector value : string) : M unit :=
  perform (Call (Fill selector value)).

Definition mouse_click (m : mouse) (px py : Z) : M unit :=
  perform (Call (MouseClick px py)).

Definition locator_click (l : locator) : M unit :=
  perform (Call (LocatorClick l)).

Definition screenshot (pg : page) (path : string) : M unit :=
  perform (Call (Screenshot path)).

(** Lines 6 to 37 of [verify_settings.py]. *)
Definition try_body (page : page) : M unit :=
  goto page localhost None ;;
  wait_for_selector page "text=Ka" None (Some 10000) ;;
  locator_click (page_locator page verify_settings.settings_button) ;;
  wait_for_selector page "text=Board Theme" None None ;;
  select_option page "select" "dark" ;;
  fill page verify_settings.range_input "5" ;;
  click page "text=Done" ;;
  mouse_click (page_mouse page) 500 300 ;;
  sleep 500 ;;
  mouse_click (page_mouse page) 550 300 ;;
  sleep 500 ;;
  screenshot page "/home/jules/verification/settings_verification.png" ;;
  print "Screenshot taken".

(** Lines 38 and 39. *)
Definition on_error (e : pyexn) : M unit :=
  print ("Error in verify_settings: " ++ message e)%string.

Definition verify_settings (page : page) : M unit :=
  try_except (try_body page) on_error.

(** Lines 47 and 48. *)
Definition main_on_error (e : pyexn) : M unit :=
  print ("Error: " ++ message e)%string.

(** Lines 41 to 50. *)
Definition main : M unit :=
  with_sync_playwright (fun p =>
    browser <- launch (chromium p) true ;;
    page <- new_page browser ;;
    try_finally (try_except (verify_settings page) main_on_error)
                (close browser)).

(** *** Some environments *)

Definition keyboard_interrupt : pyexn := PyExn BaseOnly "KeyboardInterrupt".

Definition connection_refused : pyexn :=
  PyExn IsException "net::ERR_CONNECTION_REFUSED".

Definition broken_pipe : pyexn := PyExn IsException "[Errno 32] Broken pipe".

Definition is_goto_effect (f : effect) : bool :=
  match f with
  | Call (Goto _ _) => true
  | _ => false
  end.

Definition is_print_effect (f : effect) : bool :=
  match f with
  | Print _ => true
  | _ => false
  end.

(** The operator presses Ctrl-C while the page loads. *)
Definition interrupted : env :=
  fun _ f => if is_goto_effect f then Some keyboard_interrupt else None.

(** The application is not served. *)
Definition not_served : env :=
  fun _ f => if is_goto_effect f then Some connection_refused else None.

(** The application is not served and standard output is a closed pipe. *)
Definition stdout_closed : env :=
  fun _ f =>
    if is_goto_effect f then Some connection_refused
    else if is_print_effect f then Some broken_pipe
    else None.

(** The handler of the main block was entered: its print was reached. *)
Definition main_handler_ran (t : list event) : Prop :=
  exists m o, In (Did (Print ("Error: " ++ m)%string) o) t.

(** The print of the handler of [verify_settings] raised an exception of
    class [Exception]. *)
Definition handler_print_failed (t : list event) : Prop :=
  exists m e,
    In (Did (Print ("Error in verify_settings: " ++ m)%string) (Raised e)) t /\
    class_of e = IsException.

End classes.

(** *** The two models of [verify_settings] side by side *)

(** An event of the plain model, read in the model with classes: every
    exception there is of class [Exception]. *)
Definition with_class (ev : event) : classes.event :=
  match ev with
  | ECall c (Raised e) =>
      classes.Did (classes.Call c)
                  (classes.Raised (classes.PyExn classes.IsException e))
  | ECall c _ => classes.Did (classes.Call c) classes.Done
  | ESleep ms => classes.Did (classes.Sleep ms) classes.Done
  | EPrint msg => classes.Did (classes.Print msg) classes.Done
  end.

Definition res_with_class {A} (r : res A) : classes.res A :=
  match r with
  | Ok a => classes.Ok a
  | Raise e => classes.Raise (classes.PyExn classes.IsException e)
  end.

(** An environment of the model with classes, read in the plain model. *)
Definition plain (w : classes.env) : env :=
  Env (fun h c =>
         option_map classes.message (w (map with_class h) (classes.Call c)))
      (fun _ _ => None) (fun _ => []).

(** Only calls into Playwright raise, and only exceptions of class
    [Exception]. *)
Definition only_calls_raise (w : classes.env) : Prop :=
  forall h f e,
    w h f = Some e ->
    classes.class_of e = classes.IsException /\ exists c, f = classes.Call c.

(** ** Symbolic execution of scripts *)

Lemma try_except_ok {A} (m : M A) handler w h a t :
  m w h = (Ok a, t) -> try_except m handler w h = (Ok a, t).
Proof. unfold try_except. intros ->. reflexivity. Qed.

Lemma try_except_raise {A} (m : M A) handler w h e t :
  m w h = (Raise e, t) ->
  try_except m handler w h =
  (fst (handler e w (h ++ t)), t ++ snd (handler e w (h ++ t))).
Proof.
  unfold try_except. intros ->. destruct (handler e w (h ++ t)). reflexivity.
Qed.

Ltac unfold_api :=
  cbv [with_sync_playwright try_except_finally try_finally try_except
       launch chromium new_context new_page context_new_page close goto
       wait_for_selector click select_option fill page_mouse mouse_click
       page_locator get_by_text locator_click bounding_box screenshot
       invoke sleep print bind ret].

Ltac norm_hist := repeat rewrite <- app_assoc; cbn [app].

(** Decide the next call: by a hypothesis on the environment when there is
    one, by cases otherwise. *)
Ltac step_call :=
  lazymatch goal with
  | |- context [raises ?w ?h ?c] =>
      first
        [ match goal with
          | H : raises w h c = _ |- _ => rewrite H
          end
        | match goal with
          | H : session_ok w |- _ => rewrite (H h c eq_refl)
          end
        | match goal with
          | H : forall h' c', raises w h' c' = None |- _ => rewrite (H h c)
          end
        | let E := fresh "E" in destruct (raises w h c) eqn:E ]
  end;
  cbn [app fst snd]; norm_hist.

Ltac unfold_scripts :=
  cbv [verify_mistakes.main verify_mistakes.run
       verify_mistakes_v2.main verify_mistakes_v2.run
       verify_mistakes_v3.main verify_mistakes_v3.run
       verify_mistakes_v3.try_body verify_mistakes_v3.on_error
       verify_mistakes_v4.main verify_mistakes_v4.run
       verify_mistakes_v4.try_body verify_mistakes_v4.on_error
       verify_nav.main verify_nav.verify_navigation verify_nav.try_body
       verify_nav.on_error
       verify_settings.main verify_settings.verify_settings
       verify_settings.try_body verify_settings.on_error
       verify_settings.main_on_error].

(** Run a script symbolically from the goal, branching on every call the
    hypotheses leave open. *)
Ltac execute :=
  cbv [result_of trace_of]; unfold_scripts; unfold_api;
  cbn [app fst snd]; repeat step_call.

Lemma quiet_never_raises h c : raises quiet h c = None.
Proof. reflexivity. Qed.

Lemma refused_session_ok : session_ok refused.
Proof. intros h c Hc. destruct c; try discriminate Hc; reflexivity. Qed.

Lemma refused_readonly_session_ok : session_ok refused_readonly.
Proof. intros h c Hc. destruct c; try discriminate Hc; reflexivity. Qed.

(** ** Teardown *)

Section Teardown.

Variable w : env.
Hypothesis Hsession : session_ok w.

(** The scripts that close the browser in a [finally] block call
    [browser.close()] once on every path. *)
Lemma close_once_v3 : closes (trace_of verify_mistakes_v3.main w) = 1%nat.
Proof. execute; reflexivity. Qed.

Lemma close_once_v4 : closes (trace_of verify_mistakes_v4.main w) = 1%nat.
Proof. execute; reflexivity. Qed.

Lemma close_once_nav : closes (trace_of verify_nav.main w) = 1%nat.
Proof.
  execute;
    repeat match goal with
           | |- context [box_of ?w' ?h ?l] => destruct (box_of w' h l)
           end; unfold_api; cbn [app fst snd]; repeat step_call; reflexivity.
Qed.

Lemma close_once_settings : closes (trace_of verify_settings.main w) = 1%nat.
Proof. execute; reflexivity. Qed.

(** The two scripts without [finally] reach [browser.close()] only at the end
    of a run in which nothing raised. *)
Lemma close_iff_success_v1 :
  closes (trace_of verify_mistakes.main w) =
  match result_of verify_mistakes.main w with
  | Ok _ => 1%nat
  | Raise _ => 0%nat
  end.
Proof. execute; reflexivity. Qed.

Lemma close_iff_success_v2 :
  closes (trace_of verify_mistakes_v2.main w) =
  match result_of verify_mistakes_v2.main w with
  | Ok _ => 1%nat
  | Raise _ => 0%nat
  end.
Proof. execute; reflexivity. Qed.

End Teardown.

(** C1.  The browser handle is not closed on every execution:
    [verify_mistakes.py] and [verify_mistakes_v2.py] call [browser.close()]
    as the last statement of the [with] block, outside any [finally].  When
    the application is not being served, [page.goto] raises, the exception
    leaves [run], and the trace of the run contains no call of
    [browser.close()] at all; only the [with] block's exit runs. *)
Theorem verify_mistakes_failed_step_skips_close :
  session_ok refused /\
  verify_mistakes.main refused [] =
    (Raise "net::ERR_CONNECTION_REFUSED",
     [ ECall SyncPlaywrightEnter Returned;
       ECall (Launch true) Returned;
       ECall NewPage Returned;
       ECall (Goto "http://localhost:5173" None)
             (Raised "net::ERR_CONNECTION_REFUSED");
       ECall SyncPlaywrightExit Returned ]) /\
  closes (trace_of verify_mistakes.main refused) = 0%nat /\
  closes (trace_of verify_mistakes_v2.main refused) = 0%nat /\
  closes (trace_of verify_mistakes_v3.main refused) = 1%nat.
Proof.
  split; [exact refused_session_ok|].
  repeat split; reflexivity.
Qed.

(** ** Exit status *)


Ltac in_concrete := cbn [In]; repeat (first [left; reflexivity | right]).

Ltac not_in_concrete H :=
  cbv [torn_down] in H; cbn [In] in H;
  repeat match type of H with
         | _ \/ _ => destruct H as [H | H]
         end; solve [discriminate H | contradiction H].











(** ** Readiness waits *)




(** ** The settings scenario *)

(** C5, as stated, fails: a run of [verify_settings] in which every step
    returns is not the seven-step sequence of the specification.  It has ten page
    operations, among them a fill and two clicks at coordinates, and no wait
    bounded by 5000 ms. *)
Lemma settings_run_is_not_the_claimed_sequence :
  map kind_of (calls (snd (verify_settings.verify_settings Page quiet []))) <>
  settings_steps_spec /\
  ~ In (Wait (Some 5000))
       (map kind_of (calls (snd (verify_settings.verify_settings Page quiet [])))) /\
  In FillText
     (map kind_of (calls (snd (verify_settings.verify_settings Page quiet [])))) /\
  In ClickPoint
     (map kind_of (calls (snd (verify_settings.verify_settings Page quiet [])))).
Proof.
  split; [|split; [|split]].
  - vm_compute. discriminate.
  - vm_compute. intros H.
    repeat match type of H with
           | _ \/ _ => destruct H as [H | H]
           end; solve [discriminate H | contradiction H].
  - vm_compute. tauto.
  - vm_compute. tauto.
Qed.

(** C5, amended.  When the try body of [verify_settings] returns, it has run
    exactly: navigate; wait for text "Ka" (timeout 10000 ms); click the
    button titled "Settings"; wait for text "Board Theme" (no timeout
    argument); select "dark" on [select]; fill the range input with "5";
    click "Done"; click at (500, 300); sleep 0.5 s; click at (550, 300);
    sleep 0.5 s; capture [/home/jules/verification/settings_verification.png];
    print "Screenshot taken".  Exactly one file has been written. *)
Theorem settings_success_sequence (w : env) (h t : list event) :
  verify_settings.try_body Page w h = (Ok tt, t) ->
  verify_settings.verify_settings Page w h = (Ok tt, t) /\
  actions t = settings_actions /\
  written t = ["/home/jules/verification/settings_verification.png"].
Proof.
  intros Hb. split.
  - apply try_except_ok, Hb.
  - revert Hb.
    cbv [verify_settings.try_body]; unfold_api; cbn [app fst snd];
      repeat step_call;
      intros Hb; first [discriminate Hb | injection Hb as <-];
      split; reflexivity.
Qed.

Lemma settings_success_sequence_witness :
  actions (snd (verify_settings.verify_settings Page quiet [])) =
    settings_actions /\
  written (snd (verify_settings.verify_settings Page quiet [])) =
    ["/home/jules/verification/settings_verification.png"].
Proof.
  exact (proj2 (settings_success_sequence quiet [] _ eq_refl)).
Defined.

(** ** The diagnostic capture *)

(** C6, as stated (the diagnostic path never raises), fails: the handler of
    [verify_mistakes_v3.py] calls [page.screenshot] unguarded. *)
Lemma diagnostic_capture_can_raise :
  ~ (forall w h e,
       exists t, verify_mistakes_v3.on_error Page e w h = (Ok tt, t)).
Proof.
  intros H.
  destruct (H refused_readonly started "net::ERR_CONNECTION_REFUSED")
    as (t & Ht).
  vm_compute in Ht. discriminate Ht.
Qed.

(** C6, amended.  In [verify_mistakes_v3.py] and [verify_mistakes_v4.py]
    the handler prints the first error and then takes the diagnostic
    screenshot; when that screenshot raises [e2], the handler raises [e2]
    without printing it, and with a working session [run] raises [e2] after
    the browser has been closed. *)
Theorem diagnostic_capture_failure_propagates
    (w : env) (e e2 : exn) (t : list event) :
  (forall h,
     raises w (h ++ [EPrint ("Error: " ++ e)%string])
              (Screenshot "verification/error.png") = Some e2 ->
     verify_mistakes_v3.on_error Page e w h =
       (Raise e2, [ EPrint ("Error: " ++ e)%string;
                    ECall (Screenshot "verification/error.png") (Raised e2) ]) /\
     verify_mistakes_v4.on_error Page e w h =
       (Raise e2, [ EPrint ("Error: " ++ e)%string;
                    ECall (Screenshot "verification/error.png") (Raised e2) ])) /\
  (session_ok w ->
   verify_mistakes_v3.try_body Page w started = (Raise e, t) ->
   raises w (started ++ t ++ [EPrint ("Error: " ++ e)%string])
            (Screenshot "verification/error.png") = Some e2 ->
   verify_mistakes_v3.main w [] =
     (Raise e2,
      started ++ t ++
      [ EPrint ("Error: " ++ e)%string;
        ECall (Screenshot "verification/error.png") (Raised e2) ] ++
      torn_down)) /\
  (session_ok w ->
   verify_mistakes_v4.try_body Page w started_v4 = (Raise e, t) ->
   raises w (started_v4 ++ t ++ [EPrint ("Error: " ++ e)%string])
            (Screenshot "verification/error.png") = Some e2 ->
   verify_mistakes_v4.main w [] =
     (Raise e2,
      started_v4 ++ t ++
      [ EPrint ("Error: " ++ e)%string;
        ECall (Screenshot "verification/error.png") (Raised e2) ] ++
      torn_down)).
Proof.
  split; [|split].
  - intros h Hd. split.
    + cbv [verify_mistakes_v3.on_error]; unfold_api. cbn [app fst snd].
      rewrite Hd. reflexivity.
    + cbv [verify_mistakes_v4.on_error]; unfold_api. cbn [app fst snd].
      rewrite Hd. reflexivity.
  - intros Hs Hb Hd. cbv [started] in *. cbn [app] in Hd.
    cbv [verify_mistakes_v3.main verify_mistakes_v3.run
         verify_mistakes_v3.on_error torn_down].
    unfold_api. cbn [app fst snd]. repeat step_call.
    rewrite Hb. cbn [app fst snd]. repeat step_call. reflexivity.
  - intros Hs Hb Hd. cbv [started_v4] in *. cbn [app] in Hd.
    cbv [verify_mistakes_v4.main verify_mistakes_v4.run
         verify_mistakes_v4.on_error torn_down].
    unfold_api. cbn [app fst snd]. repeat step_call.
    rewrite Hb. cbn [app fst snd]. repeat step_call. reflexivity.
Qed.

Lemma diagnostic_capture_failure_propagates_witness :
  verify_mistakes_v3.on_error Page "net::ERR_CONNECTION_REFUSED"
    refused_readonly started =
    (Raise "EROFS: read-only file system",
     [ EPrint "Error: net::ERR_CONNECTION_REFUSED";
       ECall (Screenshot "verification/error.png")
             (Raised "EROFS: read-only file system") ]) /\
  fst (verify_mistakes_v3.main refused_readonly []) =
    Raise "EROFS: read-only file system" /\
  fst (verify_mistakes_v4.main refused_readonly []) =
    Raise "EROFS: read-only file system".
Proof.
  pose proof (diagnostic_capture_failure_propagates refused_readonly
                "net::ERR_CONNECTION_REFUSED" "EROFS: read-only file system"
                [ECall (Goto localhost (Some 60000))
                       (Raised "net::ERR_CONNECTION_REFUSED")])
    as (Hh & H3 & H4).
  split; [|split].
  - exact (proj1 (Hh started eq_refl)).
  - rewrite (H3 refused_readonly_session_ok eq_refl eq_refl). reflexivity.
  - rewrite (H4 refused_readonly_session_ok eq_refl eq_refl). reflexivity.
Defined.

(** ** The navigation scenario without a bounding box *)

(** C9.  In [verify_nav.py], when the board was found and
    [board.bounding_box()] returns [None], the call that follows is the click
    on "Prev": no click at coordinates is made and nothing is raised by the
    skip.  When the click on "Prev" returns, the script sleeps 0.5 s and
    takes the screenshot [verification/verification.png]. *)
Theorem nav_without_bounding_box (w : env) (h : list event) :
  raises w h (Goto localhost None) = None ->
  raises w (h ++ [ECall (Goto localhost None) Returned])
           (WaitForSelector verify_nav.board_selector None None) = None ->
  raises w (h ++ board_found)
           (BoundingBox (CssLocator verify_nav.board_selector)) = None ->
  box_of w (h ++ board_found) (CssLocator verify_nav.board_selector) = None ->
  exists r o rest,
    verify_nav.try_body Page w h =
      (r, board_found ++
          no_box :: ECall (LocatorClick (TextLocator "Prev")) o :: rest) /\
    (forall px py o',
       ~ In (ECall (MouseClick px py) o') (snd (verify_nav.try_body Page w h))) /\
    match o with
    | Returned =>
        exists o2 rest',
          rest = ESleep 500 ::
                 ECall (Screenshot "verification/verification.png") o2 :: rest'
    | _ => rest = [] /\ exists e, r = Raise e
    end.
Proof.
  intros Hg Hw Hb Hn. cbv [board_found no_box] in *. cbn [app] in *.
  cbv [verify_nav.try_body]; unfold_api. cbn [app fst snd].
  rewrite Hg. cbn [app fst snd]. rewrite Hw. cbn [app fst snd].
  norm_hist. rewrite Hb, Hn. cbn [app fst snd]. norm_hist.
  repeat step_call;
    (do 3 eexists; split; [reflexivity|]; split;
     [ intros px py o' Hin; not_in_concrete Hin
     | cbn; eauto ]).
Qed.

Lemma nav_without_bounding_box_witness :
  exists rest,
    snd (verify_nav.try_body Page quiet []) =
    board_found ++
    no_box :: ECall (LocatorClick (TextLocator "Prev")) Returned ::
    ESleep 500 :: rest.
Proof.
  destruct (nav_without_bounding_box quiet [] eq_refl eq_refl eq_refl eq_refl)
    as (r & o & rest & Hrun & _ & Hrest).
  vm_compute in Hrun. injection Hrun as _ <- <-.
  eexists. reflexivity.
Defined.

(** ** [verify_settings] and its caller *)

Ltac unfold_classes :=
  cbv [classes.main classes.verify_settings classes.try_body
       classes.on_error classes.main_on_error classes.with_sync_playwright
       classes.try_finally classes.try_except classes.launch
       classes.new_page classes.close classes.goto classes.wait_for_selector
       classes.click classes.select_option classes.fill classes.mouse_click
       classes.locator_click classes.screenshot classes.sleep classes.print
       classes.perform classes.bind classes.ret
       chromium page_mouse page_locator].

(** Branch on the class of a raised exception, then on the next effect. *)
Ltac step_classes w :=
  first
    [ lazymatch goal with
      | |- context [classes.class_of ?e] =>
          first [ match goal with
                  | H : classes.class_of e = _ |- _ => rewrite H
                  end
                | let C := fresh "C" in destruct (classes.class_of e) eqn:C ]
      end
    | lazymatch goal with
      | |- context [w ?h ?f] =>
          first [ match goal with
                  | H : w h f = _ |- _ => rewrite H
                  end
                | let E := fresh "E" in destruct (w h f) eqn:E ]
      end ];
  cbn [app fst snd]; norm_hist.

Ltac in_trace := cbn [In]; repeat (first [left; reflexivity | right]).

Ltac refute_in H :=
  cbn [In] in H;
  repeat match type of H with
         | _ \/ _ => destruct H as [H | H]
         end;
  try contradiction H;
  try (cbn [append] in H; discriminate H);
  try (cbn [append] in H; injection H; intros; subst; congruence).

(** C10, as stated, fails on both counts.  Interrupted from the keyboard
    while the page loads, [verify_settings] lets [KeyboardInterrupt] through:
    it is not of class [Exception].  With the application not served and
    standard output closed, the handler's own print raises, that exception
    reaches the caller, and the handler of the main block runs. *)
Lemma verify_settings_can_propagate :
  classes.verify_settings Page classes.interrupted [] =
    (classes.Raise classes.keyboard_interrupt,
     [ classes.Did (classes.Call (Goto "http://localhost:5173" None))
                   (classes.Raised classes.keyboard_interrupt) ]) /\
  classes.verify_settings Page classes.stdout_closed [] =
    (classes.Raise classes.broken_pipe,
     [ classes.Did (classes.Call (Goto "http://localhost:5173" None))
                   (classes.Raised classes.connection_refused);
       classes.Did (classes.Print
                      "Error in verify_settings: net::ERR_CONNECTION_REFUSED")
                   (classes.Raised classes.broken_pipe) ]) /\
  In (classes.Did (classes.Print "Error: [Errno 32] Broken pipe")
                  (classes.Raised classes.broken_pipe))
     (snd (classes.main classes.stdout_closed [])).
Proof.
  split; [reflexivity|]. split; [reflexivity|].
  vm_compute. tauto.
Qed.

(** C10, amended.  [verify_settings] catches every exception of class
    [Exception] raised in its try body, prints it and returns; an exception
    reaches its caller only when it is outside class [Exception] or when it
    is raised by the handler's own print (line 39).  The handler of the main
    block runs exactly when that print raised an exception of class
    [Exception]. *)
Theorem verify_settings_catches_exceptions (w : classes.env) :
  (forall h e t,
     classes.verify_settings Page w h = (classes.Raise e, t) ->
     classes.class_of e = classes.BaseOnly \/
     exists m,
       In (classes.Did
             (classes.Print ("Error in verify_settings: " ++ m)%string)
             (classes.Raised e)) t) /\
  ((forall h f e, w h f = Some e -> classes.class_of e = classes.IsException) ->
   (forall h m,
      w h (classes.Print ("Error in verify_settings: " ++ m)%string) = None) ->
   forall h, exists t,
     classes.verify_settings Page w h = (classes.Ok tt, t)) /\
  (classes.main_handler_ran (snd (classes.main w [])) <->
   classes.handler_print_failed (snd (classes.main w []))).
Proof.
  split; [|split].
  - intros h. unfold_classes. cbn [app fst snd].
    repeat step_classes w;
      (intros e' t' Hr;
       first [ discriminate Hr
             | injection Hr as <- <-;
               first [ left; assumption
                     | right; eexists; in_trace ] ]).
  - intros Hcls Hprint h. unfold_classes. cbn [app fst snd].
    repeat
      (first
         [ lazymatch goal with
           | |- context [w ?h' (classes.Print ("Error in verify_settings: " ++ ?m)%string)] =>
               rewrite (Hprint h' m)
           end
         | lazymatch goal with
           | |- context [w ?h' ?f] =>
               let E := fresh "E" in
               destruct (w h' f) eqn:E;
               [ rewrite (Hcls _ _ _ E) | ]
           end ];
       cbn [app fst snd]; norm_hist);
      eexists; reflexivity.
  - unfold_classes. cbn [app fst snd].
    repeat step_classes w;
      (split;
       [ intros (m & o & Hin);
         first [ solve [refute_in Hin]
               | do 2 eexists; split; [in_trace | eassumption] ]
       | intros (m & e' & Hin & Hc);
         first [ solve [refute_in Hin]
               | do 2 eexists; in_trace ] ]).
Qed.

Lemma verify_settings_catches_exceptions_witness :
  (exists t,
     classes.verify_settings Page classes.not_served [] = (classes.Ok tt, t)) /\
  (classes.class_of classes.keyboard_interrupt = classes.BaseOnly \/
   exists m,
     In (classes.Did
           (classes.Print ("Error in verify_settings: " ++ m)%string)
           (classes.Raised classes.keyboard_interrupt))
        (snd (classes.verify_settings Page classes.interrupted []))) /\
  (classes.class_of classes.broken_pipe = classes.BaseOnly \/
   exists m,
     In (classes.Did
           (classes.Print ("Error in verify_settings: " ++ m)%string)
           (classes.Raised classes.broken_pipe))
        (snd (classes.verify_settings Page classes.stdout_closed []))) /\
  classes.main_handler_ran (snd (classes.main classes.stdout_closed [])).
Proof.
  pose proof (verify_settings_catches_exceptions classes.not_served)
    as (_ & Hcatch & _).
  pose proof (verify_settings_catches_exceptions classes.interrupted)
    as (Hint & _ & _).
  pose proof (verify_settings_catches_exceptions classes.stdout_closed)
    as (Hesc & _ & Hmain).
  split; [|split; [|split]].
  - apply Hcatch.
    + intros h f e. unfold classes.not_served.
      destruct (classes.is_goto_effect f); intros H;
        [injection H as <-; reflexivity | discriminate H].
    + intros h m. reflexivity.
  - exact (Hint [] _ _ eq_refl).
  - exact (Hesc [] _ _ eq_refl).
  - apply Hmain.
    exists "net::ERR_CONNECTION_REFUSED", classes.broken_pipe.
    split; [vm_compute; tauto | reflexivity].
Defined.

(** Where only calls raise, and only exceptions of class [Exception], the
    model with classes and the plain model of [verify_settings] agree. *)
Lemma verify_settings_models_agree (w : classes.env) (h : list event) :
  only_calls_raise w ->
  classes.verify_settings Page w (map with_class h) =
  (res_with_class (fst (verify_settings.verify_settings Page (plain w) h)),
   map with_class (snd (verify_settings.verify_settings Page (plain w) h))).
Proof.
  intros Hw.
  assert (Hquiet : forall h' f,
             (forall c, f <> classes.Call c) -> w h' f = None).
  { intros h' f Hf. destruct (w h' f) as [e|] eqn:E; [|reflexivity].
    destruct (Hw _ _ _ E) as (_ & c & ->). destruct (Hf c eq_refl). }
  cbv [verify_settings.verify_settings verify_settings.try_body
       verify_settings.on_error]; unfold_api.
  unfold_classes. cbv [plain raises box_of rendered].
  cbn [app fst snd].
  repeat
    (rewrite ?map_app; cbn [map with_class];
     first
       [ lazymatch goal with
         | |- context [w ?h' (classes.Sleep ?ms)] =>
             rewrite (Hquiet h' (classes.Sleep ms)) by (intros c; discriminate)
         | |- context [w ?h' (classes.Print ?m)] =>
             rewrite (Hquiet h' (classes.Print m)) by (intros c; discriminate)
         end
       | lazymatch goal with
         | |- context [w ?h' (classes.Call ?c)] =>
             let E := fresh "E" in
             destruct (w h' (classes.Call c)) as [[[] msg]|] eqn:E;
             [ | destruct (Hw _ _ _ E) as (Habs & _); discriminate Habs | ]
         end ];
     cbn [app fst snd option_map classes.class_of classes.message map
          with_class res_with_class];
     norm_hist);
    reflexivity.
Qed.

(** ** Where the screenshots go *)

Section Emits.

Context {A B : Type} (P : event -> Prop).

Lemma emits_ret (a : A) : emits P (ret a).
Proof. intros w h. constructor. Qed.

Lemma emits_bind (m : M A) (f : A -> M B) :
  emits P m -> (forall a, emits P (f a)) -> emits P (bind m f).
Proof.
  intros Hm Hf w h. unfold bind.
  specialize (Hm w h). destruct (m w h) as [[a|e] t]; cbn [snd] in *.
  - specialize (Hf a w (h ++ t)).
    destruct (f a w (h ++ t)) as [r t']; cbn [snd] in *.
    apply Forall_app; split; assumption.
  - assumption.
Qed.

Lemma emits_try_except (m : M A) (handler : exn -> M A) :
  emits P m -> (forall e, emits P (handler e)) ->
  emits P (try_except m handler).
Proof.
  intros Hm Hh w h. unfold try_except.
  specialize (Hm w h). destruct (m w h) as [[a|e] t]; cbn [snd] in *.
  - assumption.
  - specialize (Hh e w (h ++ t)).
    destruct (handler e w (h ++ t)) as [r t']; cbn [snd] in *.
    apply Forall_app; split; assumption.
Qed.

Lemma emits_try_finally (m : M A) (fin : M unit) :
  emits P m -> emits P fin -> emits P (try_finally m fin).
Proof.
  intros Hm Hf w h. unfold try_finally.
  specialize (Hm w h). destruct (m w h) as [r t]; cbn [snd] in *.
  specialize (Hf w (h ++ t)).
  destruct (fin w (h ++ t)) as [[u|e'] t']; cbn [snd] in *;
    apply Forall_app; split; assumption.
Qed.

End Emits.

Lemma emits_invoke P c : (forall o, P (ECall c o)) -> emits P (invoke c).
Proof.
  intros Hc w h. unfold invoke.
  destruct (raises w h c); cbn [snd]; repeat constructor; apply Hc.
Qed.

Lemma emits_bounding_box P l :
  (forall o, P (ECall (BoundingBox l) o)) -> emits P (bounding_box l).
Proof.
  intros Hc w h. unfold bounding_box.
  destruct (raises w h (BoundingBox l)); cbn [snd];
    repeat constructor; apply Hc.
Qed.

Lemma emits_screenshot P pg path :
  (forall o, P (ECall (Screenshot path) o)) -> emits P (screenshot pg path).
Proof.
  intros Hc w h. unfold screenshot.
  destruct (raises w h (Screenshot path)); cbn [snd];
    repeat constructor; apply Hc.
Qed.

Lemma emits_sleep P ms : P (ESleep ms) -> emits P (sleep ms).
Proof. intros Hp w h. repeat constructor. exact Hp. Qed.

Lemma emits_print P msg : P (EPrint msg) -> emits P (print msg).
Proof. intros Hp w h. repeat constructor. exact Hp. Qed.

Lemma captures_Forall Q t :
  Forall (captures_in Q) t -> Forall Q (captures t).
Proof.
  induction 1 as [|ev t Hev _ IH]; [constructor|].
  destruct ev as [c o| |]; cbn [captures]; try exact IH.
  destruct c; try exact IH. constructor; [exact Hev | exact IH].
Qed.

Ltac unfold_wrappers :=
  cbv [with_sync_playwright try_except_finally
       launch chromium new_context new_page context_new_page close goto
       wait_for_selector click select_option fill page_mouse mouse_click
       page_locator get_by_text locator_click].

(** Walk through a script, leaving one obligation per screenshot. *)
Ltac walk :=
  repeat first
    [ apply emits_bind; [|intros ?]
    | apply emits_try_finally
    | apply emits_try_except; [|intros ?]
    | apply emits_ret
    | apply emits_sleep; exact I
    | apply emits_print; exact I
    | apply emits_bounding_box; intros ?; exact I
    | apply emits_screenshot; intros ?; cbn; tauto
    | apply emits_invoke; intros ?; exact I
    | match goal with
      | |- emits _ (match ?b with Some _ => _ | None => _ end) => destruct b
      end ].

Lemma relative_scripts_emit :
  emits (captures_in (fun p => In p relative_artifacts)) verify_mistakes.main /\
  emits (captures_in (fun p => In p relative_artifacts)) verify_mistakes_v2.main /\
  emits (captures_in (fun p => In p relative_artifacts)) verify_mistakes_v3.main /\
  emits (captures_in (fun p => In p relative_artifacts)) verify_mistakes_v4.main /\
  emits (captures_in (fun p => In p relative_artifacts)) verify_nav.main.
Proof.
  repeat split; unfold_scripts; unfold_wrappers; walk.
Qed.

Lemma settings_script_emits :
  emits (captures_in (fun p => In p absolute_artifacts)) verify_settings.main.
Proof. unfold_scripts; unfold_wrappers; walk. Qed.

Lemma split_last_slash_app a b d f :
  split_last_slash b = Some (d, f) ->
  split_last_slash (a ++ b)%string = Some ((a ++ d)%string, f).
Proof.
  intros Hb. induction a as [|c a IH]; cbn [append split_last_slash].
  - exact Hb.
  - rewrite IH. reflexivity.
Qed.

Lemma relative_artifact_dir cwd p :
  In p relative_artifacts ->
  is_absolute p = false /\ dirname p = "verification" /\
  output_dir cwd p = (cwd ++ "/verification")%string.
Proof.
  intros Hp. cbv [relative_artifacts] in Hp. cbn [In] in Hp.
  repeat match type of Hp with
         | _ \/ _ => destruct Hp as [<- | Hp]
         end; try contradiction Hp;
    (split; [reflexivity|]; split; [reflexivity|]);
    unfold output_dir, resolve, dirname;
    match goal with
    | |- context [is_absolute ?q] => change (is_absolute q) with false
    end;
    cbv beta iota;
    erewrite split_last_slash_app by (vm_compute; reflexivity); reflexivity.
Qed.

Lemma absolute_artifact_dir cwd p :
  In p absolute_artifacts ->
  is_absolute p = true /\ output_dir cwd p = "/home/jules/verification".
Proof.
  intros [<- | []]. split; reflexivity.
Qed.

(** C7, as stated (one single output directory for every scenario), fails:
    run from [/srv/web-katrain], [verify_mistakes.py] captures into
    [/srv/web-katrain/verification] and [verify_settings.py] into
    [/home/jules/verification]. *)
Lemma no_single_output_directory :
  ~ (forall cwd, exists d,
       forall m, In m entry_points ->
       forall w p, In p (captures (trace_of m w)) -> output_dir cwd p = d).
Proof.
  intros H. destruct (H "/srv/web-katrain") as (d & Hd).
  assert (H1 : In verify_mistakes.main entry_points) by (cbn; auto 10).
  assert (H6 : In verify_settings.main entry_points) by (cbn; auto 10).
  pose proof (Hd _ H1 quiet "verification/settings_modal.png") as Hrel.
  pose proof (Hd _ H6 quiet
                "/home/jules/verification/settings_verification.png") as Habs.
  assert (Hr : output_dir "/srv/web-katrain" "verification/settings_modal.png" = d)
    by (apply Hrel; vm_compute; tauto).
  assert (Ha : output_dir "/srv/web-katrain"
                 "/home/jules/verification/settings_verification.png" = d)
    by (apply Habs; vm_compute; tauto).
  rewrite <- Ha in Hr. vm_compute in Hr. discriminate Hr.
Qed.

(** C7, amended.  Every screenshot path is one of the string literals of the
    scripts.  The five scripts [verify_mistakes*.py] and [verify_nav.py]
    capture under the relative directory [verification], that is
    [cwd/verification]; [verify_settings.py] captures under the absolute
    directory [/home/jules/verification]. *)
Theorem screenshot_directories (w : env) (cwd : string) :
  Forall (relative_capture cwd) (captures (trace_of verify_mistakes.main w)) /\
  Forall (relative_capture cwd) (captures (trace_of verify_mistakes_v2.main w)) /\
  Forall (relative_capture cwd) (captures (trace_of verify_mistakes_v3.main w)) /\
  Forall (relative_capture cwd) (captures (trace_of verify_mistakes_v4.main w)) /\
  Forall (relative_capture cwd) (captures (trace_of verify_nav.main w)) /\
  Forall (absolute_capture cwd) (captures (trace_of verify_settings.main w)).
Proof.
  assert (Hrel : forall m : M unit,
             emits (captures_in (fun p => In p relative_artifacts)) m ->
             Forall (relative_capture cwd) (captures (trace_of m w))).
  { intros m Hm.
    eapply Forall_impl; [|exact (captures_Forall _ _ (Hm w []))].
    intros p Hp. split; [exact Hp|]. apply relative_artifact_dir, Hp. }
  destruct relative_scripts_emit as (H1 & H2 & H3 & H4 & H5).
  repeat split; try (apply Hrel; assumption).
  pose proof settings_script_emits as Hm.
  eapply Forall_impl; [|exact (captures_Forall _ _ (Hm w []))].
  intros p Hp. split; [exact Hp|]. apply absolute_artifact_dir, Hp.
Qed.

(** The runs in which nothing raises do capture: the lists the theorem above
    speaks of are not empty. *)
Example captures_of_quiet_runs :
  captures (trace_of verify_mistakes.main quiet) =
    ["verification/settings_modal.png"; "verification/mistakes_ui.png"] /\
  captures (trace_of verify_mistakes_v3.main refused) =
    ["verification/error.png"] /\
  captures (trace_of verify_nav.main quiet) =
    ["verification/verification.png"] /\
  captures (trace_of verify_settings.main quiet) =
    ["/home/jules/verification/settings_verification.png"].
Proof. repeat split; reflexivity. Qed.

(** ** Overwriting captures *)

Lemma files_at_cleared path fs :
  files_at path (filter (fun f => negb (String.eqb (fst f) path)) fs) = [].
Proof.
  unfold files_at. induction fs as [|f fs IH]; [reflexivity|].
  cbn [filter]. destruct (String.eqb (fst f) path) eqn:E; cbn [negb].
  - exact IH.
  - cbn [filter]. rewrite E. exact IH.
Qed.

Lemma files_at_other path q fs :
  String.eqb q path = false ->
  files_at path (filter (fun f => negb (String.eqb (fst f) q)) fs) =
  files_at path fs.
Proof.
  intros Hq. unfold files_at. induction fs as [|f fs IH]; [reflexivity|].
  cbn [filter]. destruct (String.eqb (fst f) q) eqn:E; cbn [negb].
  - apply String.eqb_eq in E. rewrite E, Hq. exact IH.
  - cbn [filter]. rewrite IH. reflexivity.
Qed.

Lemma files_at_write path q img fs :
  files_at path (write_file q img fs) =
  if String.eqb q path then [(q, img)] else files_at path fs.
Proof.
  unfold write_file. destruct (String.eqb q path) eqn:E.
  - apply String.eqb_eq in E. subst q.
    change (files_at path ((path, img) :: ?l))
      with (if String.eqb path path then (path, img) :: files_at path l
            else files_at path l).
    rewrite String.eqb_refl, files_at_cleared. reflexivity.
  - change (files_at path ((q, img) :: ?l))
      with (if String.eqb q path then (q, img) :: files_at path l
            else files_at path l).
    rewrite E. apply files_at_other, E.
Qed.

(** C8.  Capturing to a path that already holds a file overwrites it: after
    two captures to the same path there is exactly one file at that path and
    it holds the second image.  So it is for
    [verification/settings_modal.png], which both [verify_mistakes.py]
    (line 35) and [verify_mistakes_v2.py] (line 16) capture: after a
    successful run of the first and then of the second, the one file at that
    path holds the image of the second run. *)
Theorem capture_overwrites :
  (forall fs path img1 img2,
     files_at path (write_file path img2 (write_file path img1 fs)) =
     [(path, img2)]) /\
  (forall fs w1 w2,
     (forall h c, raises w1 h c = None) ->
     (forall h c, raises w2 h c = None) ->
     files_at "verification/settings_modal.png"
       (store_after (trace_of verify_mistakes_v2.main w2)
          (store_after (trace_of verify_mistakes.main w1) fs)) =
     [("verification/settings_modal.png", rendered w2 modal_shown_v2)]).
Proof.
  split.
  - intros fs path img1 img2.
    rewrite files_at_write, String.eqb_refl. reflexivity.
  - intros fs w1 w2 H1 H2.
    execute. cbn [store_after].
    rewrite !files_at_write. reflexivity.
Qed.

Lemma capture_overwrites_witness :
  files_at "verification/settings_modal.png"
    (store_after (trace_of verify_mistakes_v2.main quiet)
       (store_after (trace_of verify_mistakes.main quiet)
          [("verification/settings_modal.png", [Byte.x89])])) =
  [("verification/settings_modal.png", [])].
Proof.
  exact (proj2 capture_overwrites
           [("verification/settings_modal.png", [Byte.x89])] quiet quiet
           quiet_never_raises quiet_never_raises).
Defined.

(** ** Further properties of the scripts *)

(** Decide the next call by a hypothesis [H] on a class of calls, by cases
    when the call is not in the class. *)
Ltac step_with H :=
  lazymatch goal with
  | |- context [raises ?w ?h ?c] =>
      first [ rewrite (H h c eq_refl)
            | let E := fresh "E" in destruct (raises w h c) eqn:E ]
  end;
  cbn [app fst snd]; norm_hist.

Ltac open_box :=
  match goal with
  | |- context [box_of ?w' ?h ?l] => destruct (box_of w' h l)
  end;
  unfold_api; cbn [app fst snd].

(** Run a script symbolically in every environment. *)
Ltac execute_all :=
  cbv [result_of trace_of]; unfold_scripts; unfold_api;
  cbn [app fst snd]; repeat first [step_call | open_box].

Ltac execute_with H :=
  cbv [result_of trace_of]; unfold_scripts; unfold_api;
  cbn [app fst snd]; repeat first [step_with H | open_box].


Lemma refused_readonly_startup_ok : startup_ok refused_readonly.
Proof. intros h c Hc. destruct c; try discriminate Hc; reflexivity. Qed.

(** The four scripts that close the browser in a [finally] block call
    [browser.close()] exactly once as soon as the session was acquired:
    whatever the steps, the handler and the teardown itself do. *)
Theorem guarded_scripts_close_once (w : env) :
  startup_ok w ->
  closes (trace_of verify_mistakes_v3.main w) = 1%nat /\
  closes (trace_of verify_mistakes_v4.main w) = 1%nat /\
  closes (trace_of verify_nav.main w) = 1%nat /\
  closes (trace_of verify_settings.main w) = 1%nat.
Proof.
  intros Hs. repeat split; execute_with Hs; reflexivity.
Qed.

Lemma guarded_scripts_close_once_witness :
  startup_ok refused_readonly /\
  closes (trace_of verify_mistakes_v3.main refused_readonly) = 1%nat /\
  closes (trace_of verify_mistakes_v4.main refused_readonly) = 1%nat /\
  closes (trace_of verify_nav.main refused_readonly) = 1%nat /\
  closes (trace_of verify_settings.main refused_readonly) = 1%nat.
Proof.
  split; [exact refused_readonly_startup_ok|].
  exact (guarded_scripts_close_once refused_readonly
           refused_readonly_startup_ok).
Defined.

Ltac each_entry_point Hm :=
  cbv [entry_points] in Hm; cbn [In] in Hm;
  repeat match type of Hm with
         | _ \/ _ => destruct Hm as [<- | Hm]
         end; [ .. | contradiction Hm ].

Ltac split_in H :=
  cbv [torn_down] in H; cbn [In] in H;
  repeat match type of H with
         | _ \/ _ => destruct H as [H | H]
         end.

(** In every script the page is created before the [try] block (or without
    one): when the creation of the page raises, the browser has been
    launched and [browser.close()] is never called.  So it is in
    [verify_mistakes_v4.py] when the creation of the context raises. *)
Theorem page_creation_failure_skips_close (m : M unit) (w : env) (e : exn) :
  In m entry_points ->
  In (ECall NewPage (Raised e)) (trace_of m w) \/
  In (ECall (NewContext 1280 720) (Raised e)) (trace_of m w) ->
  In (ECall (Launch true) Returned) (trace_of m w) /\
  closes (trace_of m w) = 0%nat.
Proof.
  intros Hm. each_entry_point Hm; execute_all;
    (intros [Hin | Hin]; split_in Hin;
     first [ discriminate Hin | contradiction Hin
           | split; [in_concrete | reflexivity] ]).
Qed.

Lemma page_creation_failure_skips_close_witness :
  In (ECall (Launch true) Returned) (trace_of verify_settings.main no_page) /\
  closes (trace_of verify_settings.main no_page) = 0%nat.
Proof.
  apply (page_creation_failure_skips_close verify_settings.main no_page
           "Target closed").
  - cbv [entry_points]. in_concrete.
  - left. vm_compute. tauto.
Defined.

(** Every script leaves its [with sync_playwright()] block exactly once, and
    as the last thing it does, whenever it entered it: also when a step, the
    handler or [browser.close()] raised. *)
Theorem with_block_is_left_once (m : M unit) (w : env) :
  In m entry_points ->
  raises w [] SyncPlaywrightEnter = None ->
  exits (trace_of m w) = 1%nat /\
  exists o, last (trace_of m w) (ESleep 0) = ECall SyncPlaywrightExit o.
Proof.
  intros Hm He. each_entry_point Hm; execute_all;
    (split; [reflexivity | eexists; reflexivity]).
Qed.

Lemma with_block_is_left_once_witness :
  exits (trace_of verify_mistakes.main refused) = 1%nat /\
  exists o,
    last (trace_of verify_mistakes.main refused) (ESleep 0) =
    ECall SyncPlaywrightExit o.
Proof.
  apply (with_block_is_left_once verify_mistakes.main refused).
  - cbv [entry_points]. in_concrete.
  - reflexivity.
Defined.

(** [verify_mistakes.py] and [verify_mistakes_v2.py] handle nothing: the
    process exits with status 0 exactly when no call at all raised. *)
Theorem unguarded_exit_status (w : env) :
  (exit_status (result_of verify_mistakes.main w) = 0 <->
   raised_calls (trace_of verify_mistakes.main w) = []) /\
  (exit_status (result_of verify_mistakes_v2.main w) = 0 <->
   raised_calls (trace_of verify_mistakes_v2.main w) = []).
Proof.
  split; execute_all; cbn [exit_status raised_calls];
    (split; intros H; first [reflexivity | discriminate H]).
Qed.

Ltac nodup_concrete :=
  repeat (constructor; [cbn [In]; intuition discriminate|]); constructor.

(** One symbolic run of each entry point for the invariants below. *)
Lemma entry_point_invariants (m : M unit) (w : env) :
  In m entry_points ->
  within_session false (trace_of m w) = true /\
  stops_at_failure false (trace_of m w) = true /\
  NoDup (captures (trace_of m w)) /\
  0 <= total_sleep (trace_of m w) <= 5000.
Proof.
  intros Hm. each_entry_point Hm; execute_all;
    (split; [reflexivity|]; split; [reflexivity|];
     split; [cbn [captures]; nodup_concrete | cbn [total_sleep]; lia]).
Qed.

(** In every script and whatever the calls do, the page is used only while
    the session is open: no page operation before [new_page] has returned
    and none after [browser.close()] has been called. *)
Theorem page_used_within_session (m : M unit) (w : env) :
  In m entry_points -> within_session false (trace_of m w) = true.
Proof. intros Hm. apply (entry_point_invariants m w Hm). Qed.

Lemma page_used_within_session_witness :
  within_session false (trace_of verify_nav.main refused) = true.
Proof.
  apply (page_used_within_session verify_nav.main refused).
  cbv [entry_points]. in_concrete.
Defined.

(** No script goes on after a failed step: once a step of the scenario has
    raised, the run makes no further step, no retry and no pause; what
    follows is at most prints, the capture of [verification/error.png] and
    the teardown. *)
Theorem no_step_after_failure (m : M unit) (w : env) :
  In m entry_points -> stops_at_failure false (trace_of m w) = true.
Proof. intros Hm. apply (entry_point_invariants m w Hm). Qed.

Lemma no_step_after_failure_witness :
  stops_at_failure false (trace_of verify_mistakes_v3.main refused_readonly) =
  true.
Proof.
  apply (no_step_after_failure verify_mistakes_v3.main refused_readonly).
  cbv [entry_points]. in_concrete.
Defined.

(** Within one run no two screenshot calls name the same path: a run never
    overwrites an artifact of its own, the error capture included. *)
Theorem captures_of_a_run_are_distinct (m : M unit) (w : env) :
  In m entry_points -> NoDup (captures (trace_of m w)).
Proof. intros Hm. apply (entry_point_invariants m w Hm). Qed.

Lemma captures_of_a_run_are_distinct_witness :
  NoDup (captures (trace_of verify_mistakes_v3.main quiet)).
Proof.
  apply (captures_of_a_run_are_distinct verify_mistakes_v3.main quiet).
  cbv [entry_points]. in_concrete.
Defined.

(** The pauses a script adds to a run sum to at most five seconds, on every
    path. *)
Theorem pauses_are_bounded (m : M unit) (w : env) :
  In m entry_points -> 0 <= total_sleep (trace_of m w) <= 5000.
Proof. intros Hm. apply (entry_point_invariants m w Hm). Qed.

Lemma pauses_are_bounded_witness :
  0 <= total_sleep (trace_of verify_nav.main (board_at (Box 40 60 600 600)))
    <= 5000.
Proof.
  apply (pauses_are_bounded verify_nav.main (board_at (Box 40 60 600 600))).
  cbv [entry_points]. in_concrete.
Defined.

(** Every script but [verify_mistakes.py] touches the page only after a
    readiness wait has returned: no click, fill, selection or bounding box
    query before that, whatever the calls do. *)
Theorem interactions_follow_a_wait (m : M unit) (w : env) :
  In m [ verify_mistakes_v2.main; verify_mistakes_v3.main;
         verify_mistakes_v4.main; verify_nav.main; verify_settings.main ] ->
  waits_before_acting false (trace_of m w) = true.
Proof.
  intros Hm. cbn [In] in Hm.
  repeat match type of Hm with
         | _ \/ _ => destruct Hm as [<- | Hm]
         end; [ .. | contradiction Hm ]; execute_all; reflexivity.
Qed.

Lemma interactions_follow_a_wait_witness :
  waits_before_acting false (trace_of verify_settings.main quiet) = true /\
  waits_before_acting false (trace_of verify_mistakes.main quiet) = false.
Proof.
  split; [|reflexivity].
  apply (interactions_follow_a_wait verify_settings.main quiet).
  in_concrete.
Defined.

(** [verify_nav.py] and [verify_settings.py] print "Screenshot taken"
    exactly in the runs that wrote their screenshot. *)
Theorem screenshot_taken_means_written (w : env) :
  (In (EPrint "Screenshot taken") (trace_of verify_nav.main w) <->
   written (trace_of verify_nav.main w) = ["verification/verification.png"]) /\
  (In (EPrint "Screenshot taken") (trace_of verify_settings.main w) <->
   written (trace_of verify_settings.main w) =
   ["/home/jules/verification/settings_verification.png"]).
Proof.
  split; execute_all; cbn [written];
    (split; intros H;
     first [ reflexivity | discriminate H
           | solve [in_concrete]
           | exfalso; split_in H;
             first [contradiction H | cbn [append] in H; discriminate H] ]).
Qed.



